(** * csv_comparision.py: row-level comparison of two CSV tables

    A shallow embedding of [compare_csv_files] (src/csv_comparision.py).
    The two data frames are read with [dtype=str], so a cell is a Python
    [str] and a row, as produced by [itertuples(index=False, name=None)],
    is a tuple of [str].  Row sets are Python sets of such tuples; they are
    modelled as [gset (list string)].  Everything the function does to the
    outside world (console output, the prompt, the directory, the two
    [to_csv] calls) is recorded, in program order, in a trace of events. *)

From Stdlib Require Import String Ascii.
From stdpp Require Import base gmap sets list strings.

Module CsvComparison.

(** ** Data *)

(** A row as a tuple of raw text fields. *)
Abbreviation RowKey := (list string).

(** A [pandas.DataFrame] whose cells are all [str]: the column labels and
    the rows, both in file order. *)
Record DataFrame := mkDataFrame {
  columns : list string;
  rows : list RowKey
}.

(** The exception caught on line 51, identified with its message. *)
Abbreviation Exception := string.

(** [list(s)] for a Python set [s]: every element exactly once, in an order
    that the language leaves to the interpreter (for tuples of [str] it
    follows the per-process salted string hash). *)
Record SetOrder := mkSetOrder {
  to_list :> gset RowKey → list RowKey;
  to_list_perm : ∀ s, to_list s ≡ₚ elements s
}.

(** What a run of the function can observe of its environment. *)
Record World := mkWorld {
  now : string;                               (* strftime("%Y%m%d_%H%M%S") *)
  getcwd : string;                            (* os.getcwd() *)
  read_csv : string → Exception + DataFrame;  (* pd.read_csv(path, dtype=str, ...) *)
  input : string;                             (* the line typed at the prompt *)
  set_order : SetOrder                        (* iteration order of sets *)
}.

(** Console lines, one constructor per [print] of the source. *)
Inductive Message :=
| Comparing (file1_path file2_path : string)          (* line 33 *)
| ErrorReading (e : Exception)                        (* line 52 *)
| ColumnsDontMatch                                    (* line 57 *)
| ColumnsIn (name : string) (cols : list string)      (* lines 58, 59 *)
| ComparisonAborted                                   (* line 62 *)
| ComparisonResults                                   (* line 83 *)
| TotalRowsIn (name : string) (n : nat)               (* lines 84, 85 *)
| IdenticalRows (n : nat)                             (* line 86 *)
| RowsMissing (name other : string) (n : nat)         (* lines 87, 88 *)
| SavedTo (name other path : string)                  (* lines 97, 107 *)
| NoRecordsMissing (name other : string).             (* lines 99, 109 *)

Inductive Event :=
| Makedirs (dir : string)                             (* line 24 *)
| Print (m : Message)
| Prompt                                              (* line 60 *)
| ToCsv (path : string) (df : DataFrame).             (* lines 96, 106 *)

(** ** Path and string helpers of the Python library *)

Fixpoint has_slash (s : string) : bool :=
  match s with
  | EmptyString => false
  | String c r => if Ascii.eqb c "/" then true else has_slash r
  end.

(** [os.path.basename]: what follows the last slash. *)
Fixpoint basename (s : string) : string :=
  match s with
  | EmptyString => EmptyString
  | String _ r => if has_slash s then basename r else s
  end.

(** [s.split('.')[0]]: what precedes the first dot. *)
Fixpoint before_dot (s : string) : string :=
  match s with
  | EmptyString => EmptyString
  | String c r => if Ascii.eqb c "." then EmptyString else String c (before_dot r)
  end.

Fixpoint ends_with_slash (s : string) : bool :=
  match s with
  | EmptyString => false
  | String c EmptyString => Ascii.eqb c "/"
  | String _ r => ends_with_slash r
  end.

(** [os.path.join a b] (POSIX). *)
Definition path_join (a b : string) : string :=
  match b with
  | String "/" _ => b
  | _ => if ends_with_slash a then a +:+ b
         else match a with
              | EmptyString => b
              | _ => a +:+ "/" +:+ b
              end
  end.

Definition lower_ascii (c : ascii) : ascii :=
  let n := nat_of_ascii c in
  if (65 <=? n) && (n <=? 90) then ascii_of_nat (n + 32) else c.

(** [str.lower] on the characters a console line is made of. *)
Fixpoint lower (s : string) : string :=
  match s with
  | EmptyString => EmptyString
  | String c r => String (lower_ascii c) (lower r)
  end.

(** [str(x)] for an [x] that is already a [str]. *)
Definition py_str (x : string) : string := x.

(** ** Data-frame operations used by the comparison *)

(** [df.astype(str)] *)
Definition astype_str (df : DataFrame) : DataFrame :=
  {| columns := columns df; rows := map (map py_str) (rows df) |}.

(** [df.itertuples(index=False, name=None)] *)
Definition itertuples (df : DataFrame) : list RowKey := rows df.

(** [set(iterable)] *)
Definition py_set (l : list RowKey) : gset RowKey := list_to_set l.

(** [len(df)] *)
Definition len (df : DataFrame) : nat := length (rows df).

(** ** Lines 67-80: the row sets and the statistics *)

Record Comparison := mkComparison {
  df1_rows : gset RowKey;
  df2_rows : gset RowKey;
  common_rows : gset RowKey;
  missing_in_file2 : gset RowKey;
  missing_in_file1 : gset RowKey;
  total_rows_file1 : nat;
  total_rows_file2 : nat;
  identical_rows : nat;
  rows_missing_in_file2 : nat;
  rows_missing_in_file1 : nat
}.

Definition compare (df1 df2 : DataFrame) : Comparison :=
  let df1_rows := py_set (itertuples (astype_str df1)) in
  let df2_rows := py_set (itertuples (astype_str df2)) in
  let common_rows := df1_rows ∩ df2_rows in
  let missing_in_file2 := df1_rows ∖ df2_rows in
  let missing_in_file1 := df2_rows ∖ df1_rows in
  {| df1_rows := df1_rows;
     df2_rows := df2_rows;
     common_rows := common_rows;
     missing_in_file2 := missing_in_file2;
     missing_in_file1 := missing_in_file1;
     total_rows_file1 := len df1;
     total_rows_file2 := len df2;
     identical_rows := size common_rows;
     rows_missing_in_file2 := size missing_in_file2;
     rows_missing_in_file1 := size missing_in_file1 |}.

(** ** Line 56: the column check *)

Definition columns_differ (df1 df2 : DataFrame) : bool :=
  bool_decide ((list_to_set (columns df1) : gset string) ≠ list_to_set (columns df2)).

(** ** Lines 90-109: the two output files *)

(** One side: [pd.DataFrame(list(missing), columns=df.columns).to_csv(path,
    index=False)] when there is something to write. *)
Definition write_missing (o : SetOrder) (n : nat) (missing : gset RowKey)
    (df : DataFrame) (name other path : string) : list Event :=
  if bool_decide (0 < n) then
    let missing_records := o missing in
    let missing_df := {| columns := columns df; rows := missing_records |} in
    [ToCsv path missing_df; Print (SavedTo name other path)]
  else
    [Print (NoRecordsMissing name other)].

(** ** Lines 65-109: everything after the column check *)

Definition compare_and_write (w : World) (df1 df2 : DataFrame)
    (file1_name file2_name : string)
    (missing_in_file2_path missing_in_file1_path : string) : list Event :=
  let c := compare df1 df2 in
  [ Print ComparisonResults;
    Print (TotalRowsIn file1_name (total_rows_file1 c));
    Print (TotalRowsIn file2_name (total_rows_file2 c));
    Print (IdenticalRows (identical_rows c));
    Print (RowsMissing file1_name file2_name (rows_missing_in_file2 c));
    Print (RowsMissing file2_name file1_name (rows_missing_in_file1 c)) ]
  ++ write_missing (set_order w) (rows_missing_in_file2 c) (missing_in_file2 c)
       df1 file1_name file2_name missing_in_file2_path
  ++ write_missing (set_order w) (rows_missing_in_file1 c) (missing_in_file1 c)
       df2 file2_name file1_name missing_in_file1_path.

(** ** Lines 17-31: where the output goes *)

(** Lines 21-23. *)
Definition output_directory (w : World) (output_dir : option string) : string :=
  let timestamp := now w in
  match output_dir with
  | None =>
      path_join (path_join (path_join (getcwd w) (substring 0 4 timestamp))
                   (substring 4 2 timestamp)) (substring 6 2 timestamp)
  | Some d => d
  end.

(** Lines 26-27: [os.path.basename(path).split('.')[0]]. *)
Definition file_name (path : string) : string := before_dot (basename path).

(** Lines 30-31: the path of the file listing the rows of [name] that are
    missing in [other]. *)
Definition missing_path (w : World) (output_dir : option string)
    (name other : string) : string :=
  path_join (output_directory w output_dir)
    (name +:+ "_missing_in_" +:+ other +:+ "_" +:+ now w +:+ ".csv").

(** ** The whole function *)

Definition compare_csv_files (w : World) (file1_path file2_path : string)
    (output_dir : option string) : list Event :=
  let file1_name := file_name file1_path in
  let file2_name := file_name file2_path in
  let missing_in_file2_path := missing_path w output_dir file1_name file2_name in
  let missing_in_file1_path := missing_path w output_dir file2_name file1_name in
  [ Makedirs (output_directory w output_dir);
    Print (Comparing file1_path file2_path) ] ++
  match read_csv w file1_path with
  | inl e => [Print (ErrorReading e)]
  | inr df1 =>
    match read_csv w file2_path with
    | inl e => [Print (ErrorReading e)]
    | inr df2 =>
      let rest :=
        compare_and_write w df1 df2 file1_name file2_name
          missing_in_file2_path missing_in_file1_path in
      if columns_differ df1 df2 then
        [ Print ColumnsDontMatch;
          Print (ColumnsIn file1_name (columns df1));
          Print (ColumnsIn file2_name (columns df2));
          Prompt ] ++
        (if bool_decide (lower (input w) ≠ "y") then [Print ComparisonAborted]
         else rest)
      else rest
    end
  end.

(** The tables handed to [to_csv] during a run, in order. *)
Definition written (t : list Event) : list (string * DataFrame) :=
  omap (λ e, match e with ToCsv p df => Some (p, df) | _ => None end) t.

Definition printed (t : list Event) : list Message :=
  omap (λ e, match e with Print m => Some m | _ => None end) t.

(** ** Notions used to state the properties *)

(** The rows of a table with repetitions removed. *)
Definition distinct_rows (df : DataFrame) : list RowKey := remove_dups (rows df).

(** Two runs see the same inputs: clock, directory, both files, and the
    answer at the prompt. *)
Definition same_inputs (w1 w2 : World) (f1 f2 : string) : Prop :=
  now w1 = now w2 ∧ getcwd w1 = getcwd w2 ∧
  read_csv w1 f1 = read_csv w2 f1 ∧ read_csv w1 f2 = read_csv w2 f2 ∧
  input w1 = input w2.

(** Same file, same header, same rows up to their order. *)
Definition same_table (x y : string * DataFrame) : Prop :=
  x.1 = y.1 ∧ columns x.2 = columns y.2 ∧ rows x.2 ≡ₚ rows y.2.

(** ** Concrete tables and worlds *)

(** A directory of readable files; any other path raises. *)
Fixpoint lookup_file (files : list (string * DataFrame)) (path : string)
    : Exception + DataFrame :=
  match files with
  | [] => inl "No such file or directory"
  | (p, df) :: rest => if String.eqb p path then inr df else lookup_file rest path
  end.

(** Two admissible iteration orders. *)
Definition order_fwd : SetOrder :=
  mkSetOrder elements (λ s, reflexivity (elements s)).

Definition order_rev : SetOrder :=
  mkSetOrder (λ s, reverse (elements s)) (λ s, reverse_Permutation (elements s)).

Definition world_of (files : list (string * DataFrame)) (answer : string)
    (o : SetOrder) : World :=
  {| now := "20240131_120000"; getcwd := "/work";
     read_csv := lookup_file files; input := answer; set_order := o |}.

Definition left_ab : DataFrame :=
  {| columns := ["a"; "b"]; rows := [["1"; "2"]; ["3"; "4"]; ["7"; "8"]] |}.
Definition right_ab : DataFrame :=
  {| columns := ["a"; "b"]; rows := [["1"; "2"]; ["5"; "6"]] |}.
Definition right_ac : DataFrame :=
  {| columns := ["a"; "c"]; rows := [["1"; "2"]; ["5"; "6"]] |}.
Definition right_ba : DataFrame :=
  {| columns := ["b"; "a"]; rows := [["2"; "1"]; ["4"; "3"]; ["8"; "7"]] |}.
Definition ids_left : DataFrame :=
  {| columns := ["id"]; rows := [["007"]; ["42"]] |}.
Definition ids_right : DataFrame :=
  {| columns := ["id"]; rows := [["7"]; ["42"]] |}.

Definition files_ab := [("old/left.csv", left_ab); ("new/right.csv", right_ab)].
Definition files_ac := [("old/left.csv", left_ab); ("new/right.csv", right_ac)].
Definition files_ba := [("old/left.csv", left_ab); ("new/right.csv", right_ba)].
Definition files_ids := [("old/left.csv", ids_left); ("new/right.csv", ids_right)].

(** A table whose only row occurs twice. *)
Definition twice : DataFrame :=
  {| columns := ["a"]; rows := [["1"]; ["1"]] |}.

(** ** Notions used for the properties of the rest of the function *)

Fixpoint has_dot (s : string) : bool :=
  match s with
  | EmptyString => false
  | String c r => if Ascii.eqb c "." then true else has_dot r
  end.

(** The invariant of a data frame: every row has one field per column. *)
Definition well_formed (df : DataFrame) : Prop :=
  Forall (λ r : RowKey, length r = length (columns df)) (rows df).

(** The same world with another line typed at the prompt. *)
Definition with_answer (w : World) (answer : string) : World :=
  {| now := now w; getcwd := getcwd w; read_csv := read_csv w;
     input := answer; set_order := set_order w |}.

(** Two files called [data.csv] in different directories. *)
Definition files_data := [("old/data.csv", left_ab); ("new/data.csv", right_ab)].

(** The two tables under absolute paths. *)
Definition files_abs :=
  [("/srv/old/left.csv", left_ab); ("/srv/new/right.csv", right_ab)].

(** ** Basic facts about the row sets *)

Lemma astype_str_id df : astype_str df = df.
Proof.
  destruct df as [cs rs]. unfold astype_str; simpl. f_equal.
  rewrite <- (map_id rs) at 2. apply map_ext. intros r. apply map_id.
Qed.

Lemma elem_of_py_set_rows df r :
  r ∈ py_set (itertuples (astype_str df)) ↔ r ∈ rows df.
Proof. rewrite astype_str_id. unfold py_set, itertuples. apply elem_of_list_to_set. Qed.

Lemma elem_of_df1_rows A B r : r ∈ df1_rows (compare A B) ↔ r ∈ rows A.
Proof. apply elem_of_py_set_rows. Qed.

Lemma elem_of_df2_rows A B r : r ∈ df2_rows (compare A B) ↔ r ∈ rows B.
Proof. apply elem_of_py_set_rows. Qed.

Lemma elem_of_common_rows A B r :
  r ∈ common_rows (compare A B) ↔ r ∈ rows A ∧ r ∈ rows B.
Proof.
  unfold compare; cbn [common_rows].
  rewrite elem_of_intersection, !elem_of_py_set_rows. done.
Qed.

Lemma elem_of_missing_in_file2 A B r :
  r ∈ missing_in_file2 (compare A B) ↔ r ∈ rows A ∧ r ∉ rows B.
Proof.
  unfold compare; cbn [missing_in_file2].
  rewrite elem_of_difference, !elem_of_py_set_rows. done.
Qed.

Lemma elem_of_missing_in_file1 A B r :
  r ∈ missing_in_file1 (compare A B) ↔ r ∈ rows B ∧ r ∉ rows A.
Proof.
  unfold compare; cbn [missing_in_file1].
  rewrite elem_of_difference, !elem_of_py_set_rows. done.
Qed.

(** The size of a set is the number of distinct entries of any list that
    enumerates it. *)
Lemma size_as_distinct (s : gset RowKey) (l : list RowKey) :
  (∀ r, r ∈ s ↔ r ∈ l) → size s = length (remove_dups l).
Proof.
  intros Hl. unfold size, set_size; simpl.
  apply Permutation_length, NoDup_Permutation.
  - apply NoDup_elements.
  - apply NoDup_remove_dups.
  - intros r. rewrite elem_of_elements, elem_of_remove_dups. apply Hl.
Qed.

Lemma length_remove_dups_le (l : list RowKey) : length (remove_dups l) ≤ length l.
Proof.
  induction l as [|r l IH]; simpl; [lia|].
  destruct (decide_rel elem_of r l); simpl; lia.
Qed.

Lemma missing_in_file2_self T : missing_in_file2 (compare T T) = ∅.
Proof.
  apply set_eq. intros r. rewrite elem_of_missing_in_file2, elem_of_empty. tauto.
Qed.

Lemma missing_in_file1_self T : missing_in_file1 (compare T T) = ∅.
Proof.
  apply set_eq. intros r. rewrite elem_of_missing_in_file1, elem_of_empty. tauto.
Qed.

(** ** The three-way partition *)

(** C1. Partition completeness: a row key is in [common ∪ leftOnly] exactly
    when it is a row of the left table, in [common ∪ rightOnly] exactly when
    it is a row of the right table, and the three collections are pairwise
    disjoint. *)
Theorem partition_completeness (A B : DataFrame) :
  let c := compare A B in
  (∀ r, r ∈ common_rows c ∪ missing_in_file2 c ↔ r ∈ rows A) ∧
  (∀ r, r ∈ common_rows c ∪ missing_in_file1 c ↔ r ∈ rows B) ∧
  missing_in_file2 c ∩ missing_in_file1 c = ∅ ∧
  missing_in_file2 c ∩ common_rows c = ∅ ∧
  missing_in_file1 c ∩ common_rows c = ∅.
Proof.
  intros c. subst c. split_and!.
  - intros r. rewrite elem_of_union, elem_of_common_rows, elem_of_missing_in_file2.
    destruct (decide (r ∈ rows B)); tauto.
  - intros r. rewrite elem_of_union, elem_of_common_rows, elem_of_missing_in_file1.
    destruct (decide (r ∈ rows A)); tauto.
  - apply set_eq. intros r.
    rewrite elem_of_intersection, elem_of_missing_in_file2, elem_of_missing_in_file1.
    rewrite elem_of_empty. tauto.
  - apply set_eq. intros r.
    rewrite elem_of_intersection, elem_of_missing_in_file2, elem_of_common_rows.
    rewrite elem_of_empty. tauto.
  - apply set_eq. intros r.
    rewrite elem_of_intersection, elem_of_missing_in_file1, elem_of_common_rows.
    rewrite elem_of_empty. tauto.
Qed.

(** C3. Idempotence: comparing a table with itself leaves both difference
    sets empty, and the common set holds exactly the rows of the table. *)
Theorem compare_self (T : DataFrame) :
  let c := compare T T in
  missing_in_file2 c = ∅ ∧
  missing_in_file1 c = ∅ ∧
  (∀ r, r ∈ common_rows c ↔ r ∈ rows T) ∧
  identical_rows c = length (remove_dups (rows T)).
Proof.
  intros c. subst c. split_and!.
  - apply missing_in_file2_self.
  - apply missing_in_file1_self.
  - intros r. rewrite elem_of_common_rows. tauto.
  - apply size_as_distinct. intros r.
    change (r ∈ common_rows (compare T T) ↔ r ∈ rows T).
    rewrite elem_of_common_rows. tauto.
Qed.

(** C4. Symmetry: swapping the two tables swaps the two difference sets
    (and their counts) and leaves the common set unchanged. *)
Theorem compare_symmetry (A B : DataFrame) :
  missing_in_file2 (compare A B) = missing_in_file1 (compare B A) ∧
  missing_in_file1 (compare A B) = missing_in_file2 (compare B A) ∧
  common_rows (compare A B) = common_rows (compare B A) ∧
  rows_missing_in_file2 (compare A B) = rows_missing_in_file1 (compare B A) ∧
  rows_missing_in_file1 (compare A B) = rows_missing_in_file2 (compare B A).
Proof.
  split_and!; try reflexivity.
  apply set_eq. intros r. rewrite !elem_of_common_rows. tauto.
Qed.

(** Scenario A of the specification: header [a,b]; left rows [1,2], [3,4];
    right rows [1,2], [5,6]. *)
Example scenario_A :
  let c := compare (mkDataFrame ["a"; "b"] [["1"; "2"]; ["3"; "4"]])
                   (mkDataFrame ["a"; "b"] [["1"; "2"]; ["5"; "6"]]) in
  elements (common_rows c) = [["1"; "2"]] ∧
  elements (missing_in_file2 c) = [["3"; "4"]] ∧
  elements (missing_in_file1 c) = [["5"; "6"]] ∧
  (identical_rows c, rows_missing_in_file2 c, rows_missing_in_file1 c) = (1, 1, 1).
Proof. vm_compute. repeat split. Qed.

(** ** The statistics *)

Lemma size_df1_rows A B : size (df1_rows (compare A B)) = length (distinct_rows A).
Proof. apply size_as_distinct. intros r. apply elem_of_df1_rows. Qed.

Lemma size_df2_rows A B : size (df2_rows (compare A B)) = length (distinct_rows B).
Proof. apply size_as_distinct. intros r. apply elem_of_df2_rows. Qed.

Lemma identical_plus_missing_in_file2 A B :
  identical_rows (compare A B) + rows_missing_in_file2 (compare A B)
  = length (distinct_rows A).
Proof.
  rewrite <- (size_df1_rows A B). unfold compare; simpl.
  rewrite <- size_union by apply disjoint_difference_r1, intersection_subseteq_r. f_equal.
  apply set_eq. intros r.
  rewrite elem_of_union, elem_of_intersection, elem_of_difference.
  destruct (decide (r ∈ py_set (itertuples (astype_str B)))); tauto.
Qed.

Lemma identical_plus_missing_in_file1 A B :
  identical_rows (compare A B) + rows_missing_in_file1 (compare A B)
  = length (distinct_rows B).
Proof.
  rewrite <- (size_df2_rows A B). unfold compare; simpl.
  rewrite <- size_union by apply disjoint_difference_r1, intersection_subseteq_l. f_equal.
  apply set_eq. intros r.
  rewrite elem_of_union, elem_of_intersection, elem_of_difference.
  destruct (decide (r ∈ py_set (itertuples (astype_str A)))); tauto.
Qed.

Lemma distinct_rows_replicate cols (r : RowKey) N :
  0 < N → length (distinct_rows (mkDataFrame cols (replicate N r))) = 1.
Proof.
  intros HN. unfold distinct_rows; simpl.
  induction N as [|n IH]; [lia|]. simpl.
  destruct (decide_rel elem_of r (replicate n r)) as [Hin|Hnin].
  - apply IH. destruct n; [inversion Hin | lia].
  - destruct n as [|n]; [reflexivity|]. exfalso. apply Hnin. simpl. left.
Qed.

(** C2, as stated, fails: the two totals are raw row counts.  For a table
    holding one row twice the reported total is 2 while the table has a
    single distinct row key. *)
Lemma total_rows_counts_duplicates :
  total_rows_file1 (compare twice twice) = 2 ∧
  total_rows_file2 (compare twice twice) = 2 ∧
  length (distinct_rows twice) = 1 ∧
  total_rows_file1 (compare twice twice) ≠ length (distinct_rows twice).
Proof. split_and!; [reflexivity | reflexivity | reflexivity | discriminate]. Qed.

(** C2, amended. The three set counts are numbers of distinct row keys: of
    the left rows that occur in the right table, of the left rows that do
    not, and of the right rows that do not occur in the left table; the two
    totals are the raw row counts of the tables, which are at least the
    number of distinct keys split between the set counts. *)
Theorem counts_reported (A B : DataFrame) :
  let c := compare A B in
  total_rows_file1 c = length (rows A) ∧
  total_rows_file2 c = length (rows B) ∧
  identical_rows c = length (remove_dups (filter (λ r, r ∈ rows B) (rows A))) ∧
  rows_missing_in_file2 c = length (remove_dups (filter (λ r, r ∉ rows B) (rows A))) ∧
  rows_missing_in_file1 c = length (remove_dups (filter (λ r, r ∉ rows A) (rows B))) ∧
  identical_rows c + rows_missing_in_file2 c = length (distinct_rows A) ∧
  identical_rows c + rows_missing_in_file1 c = length (distinct_rows B) ∧
  length (distinct_rows A) ≤ total_rows_file1 c ∧
  length (distinct_rows B) ≤ total_rows_file2 c.
Proof.
  intros c. subst c. split_and!.
  - reflexivity.
  - reflexivity.
  - apply size_as_distinct. intros r.
    change (r ∈ common_rows (compare A B) ↔ r ∈ filter (λ r, r ∈ rows B) (rows A)).
    rewrite elem_of_common_rows, list_elem_of_filter. tauto.
  - apply size_as_distinct. intros r.
    change (r ∈ missing_in_file2 (compare A B) ↔ r ∈ filter (λ r, r ∉ rows B) (rows A)).
    rewrite elem_of_missing_in_file2, list_elem_of_filter. tauto.
  - apply size_as_distinct. intros r.
    change (r ∈ missing_in_file1 (compare A B) ↔ r ∈ filter (λ r, r ∉ rows A) (rows B)).
    rewrite elem_of_missing_in_file1, list_elem_of_filter. tauto.
  - apply identical_plus_missing_in_file2.
  - apply identical_plus_missing_in_file1.
  - apply length_remove_dups_le.
  - apply length_remove_dups_le.
Qed.

Lemma common_rows_no_right_rows A B : rows B = [] → common_rows (compare A B) = ∅.
Proof.
  intros HB. apply set_eq. intros r.
  rewrite elem_of_common_rows, HB, elem_of_empty, elem_of_nil. tauto.
Qed.

Lemma common_rows_no_left_rows A B : rows A = [] → common_rows (compare A B) = ∅.
Proof.
  intros HA. apply set_eq. intros r.
  rewrite elem_of_common_rows, HA, elem_of_empty, elem_of_nil. tauto.
Qed.

(** C5. Duplicate collapse: for a table [T] made of one row repeated [N > 1]
    times, comparing [T] with itself counts 1 common row and no difference;
    against any table the common and left-only (resp. right-only) counts add
    up to 1; against a table without rows the one-sided count is 1. *)
Theorem duplicate_collapse (cols : list string) (r : RowKey) (N : nat) (B : DataFrame) :
  1 < N →
  let T := mkDataFrame cols (replicate N r) in
  (identical_rows (compare T T) = 1 ∧
   rows_missing_in_file2 (compare T T) = 0 ∧
   rows_missing_in_file1 (compare T T) = 0) ∧
  identical_rows (compare T B) + rows_missing_in_file2 (compare T B) = 1 ∧
  identical_rows (compare B T) + rows_missing_in_file1 (compare B T) = 1 ∧
  (rows B = [] →
   rows_missing_in_file2 (compare T B) = 1 ∧
   rows_missing_in_file1 (compare B T) = 1).
Proof.
  intros HN T.
  assert (HT : length (distinct_rows T) = 1) by (apply distinct_rows_replicate; lia).
  assert (H2 : rows_missing_in_file2 (compare T T) = 0).
  { change (size (missing_in_file2 (compare T T)) = 0).
    rewrite missing_in_file2_self. apply size_empty. }
  assert (H1 : rows_missing_in_file1 (compare T T) = 0).
  { change (size (missing_in_file1 (compare T T)) = 0).
    rewrite missing_in_file1_self. apply size_empty. }
  pose proof (identical_plus_missing_in_file2 T T) as HTT.
  pose proof (identical_plus_missing_in_file2 T B) as HTB.
  pose proof (identical_plus_missing_in_file1 B T) as HBT.
  split_and!; try lia.
  intros HB.
  assert (identical_rows (compare T B) = 0) as E1.
  { change (size (common_rows (compare T B)) = 0).
    rewrite common_rows_no_right_rows by exact HB. apply size_empty. }
  assert (identical_rows (compare B T) = 0) as E2.
  { change (size (common_rows (compare B T)) = 0).
    rewrite common_rows_no_left_rows by exact HB. apply size_empty. }
  lia.
Qed.

Lemma duplicate_collapse_witness :
  let T := mkDataFrame ["a"; "b"] (replicate 3 ["x"; "y"]) in
  let B := mkDataFrame ["a"; "b"] [] in
  (identical_rows (compare T T) = 1 ∧
   rows_missing_in_file2 (compare T T) = 0 ∧
   rows_missing_in_file1 (compare T T) = 0) ∧
  identical_rows (compare T B) + rows_missing_in_file2 (compare T B) = 1 ∧
  identical_rows (compare B T) + rows_missing_in_file1 (compare B T) = 1 ∧
  (rows B = [] →
   rows_missing_in_file2 (compare T B) = 1 ∧
   rows_missing_in_file1 (compare B T) = 1).
Proof.
  apply (duplicate_collapse ["a"; "b"] ["x"; "y"] 3 (mkDataFrame ["a"; "b"] [])).
  lia.
Defined.

(** ** The shape of a run *)

Lemma elem_of_to_list (o : SetOrder) (s : gset RowKey) r : r ∈ o s ↔ r ∈ s.
Proof. rewrite (to_list_perm o s). apply elem_of_elements. Qed.

Lemma NoDup_to_list (o : SetOrder) (s : gset RowKey) : NoDup (o s).
Proof. rewrite (to_list_perm o s). apply NoDup_elements. Qed.

Lemma size_pos_iff (s : gset RowKey) : 0 < size s ↔ s ≠ ∅.
Proof.
  split.
  - intros Hs ->. rewrite size_empty in Hs. lia.
  - intros Hne. destruct (size s) eqn:E; [|lia].
    exfalso. apply Hne. apply leibniz_equiv, size_empty_iff. exact E.
Qed.

(** A run in which a file cannot be read. *)
Lemma run_read_error w f1 f2 od e :
  read_csv w f1 = inl e ∨ (∃ A, read_csv w f1 = inr A ∧ read_csv w f2 = inl e) →
  compare_csv_files w f1 f2 od =
    [ Makedirs (output_directory w od); Print (Comparing f1 f2);
      Print (ErrorReading e) ].
Proof.
  unfold compare_csv_files. intros [H1 | (A & H1 & H2)].
  - rewrite H1. reflexivity.
  - rewrite H1, H2. reflexivity.
Qed.

(** A run in which the user declines to go on after the warning. *)
Lemma run_declined w f1 f2 od A B :
  read_csv w f1 = inr A → read_csv w f2 = inr B →
  columns_differ A B = true → lower (input w) ≠ "y" →
  compare_csv_files w f1 f2 od =
    [ Makedirs (output_directory w od); Print (Comparing f1 f2);
      Print ColumnsDontMatch;
      Print (ColumnsIn (file_name f1) (columns A));
      Print (ColumnsIn (file_name f2) (columns B));
      Prompt; Print ComparisonAborted ].
Proof.
  intros H1 H2 Hd Hn. unfold compare_csv_files.
  rewrite H1, H2, Hd, bool_decide_eq_true_2 by exact Hn. reflexivity.
Qed.

(** A run that reaches line 65: the files were read, and the columns agree
    or the user typed [y]. *)
Lemma run_compared w f1 f2 od A B :
  read_csv w f1 = inr A → read_csv w f2 = inr B →
  (columns_differ A B = true → lower (input w) = "y") →
  compare_csv_files w f1 f2 od =
    [ Makedirs (output_directory w od); Print (Comparing f1 f2) ] ++
    (if columns_differ A B then
       [ Print ColumnsDontMatch;
         Print (ColumnsIn (file_name f1) (columns A));
         Print (ColumnsIn (file_name f2) (columns B));
         Prompt ]
     else []) ++
    compare_and_write w A B (file_name f1) (file_name f2)
      (missing_path w od (file_name f1) (file_name f2))
      (missing_path w od (file_name f2) (file_name f1)).
Proof.
  intros H1 H2 Hy. unfold compare_csv_files. rewrite H1, H2.
  destruct (columns_differ A B); [|reflexivity].
  rewrite bool_decide_eq_false_2; [reflexivity|].
  intros Hn. apply Hn, Hy. reflexivity.
Qed.

Lemma written_app t1 t2 : written (t1 ++ t2) = written t1 ++ written t2.
Proof. apply omap_app. Qed.

Lemma written_write_missing (o : SetOrder) (s : gset RowKey) df name other path :
  written (write_missing o (size s) s df name other path) =
    if decide (s = ∅) then [] else [(path, mkDataFrame (columns df) (o s))].
Proof.
  unfold write_missing. destruct (decide (s = ∅)) as [->|Hne].
  - rewrite size_empty. reflexivity.
  - rewrite bool_decide_eq_true_2 by (apply size_pos_iff; exact Hne). reflexivity.
Qed.

Lemma written_compare_and_write w A B n1 n2 p2 p1 :
  written (compare_and_write w A B n1 n2 p2 p1) =
    (if decide (missing_in_file2 (compare A B) = ∅) then []
     else [(p2, mkDataFrame (columns A) (set_order w (missing_in_file2 (compare A B))))]) ++
    (if decide (missing_in_file1 (compare A B) = ∅) then []
     else [(p1, mkDataFrame (columns B) (set_order w (missing_in_file1 (compare A B))))]).
Proof.
  unfold compare_and_write. rewrite !written_app.
  change (rows_missing_in_file2 (compare A B)) with (size (missing_in_file2 (compare A B))).
  change (rows_missing_in_file1 (compare A B)) with (size (missing_in_file1 (compare A B))).
  rewrite !written_write_missing. reflexivity.
Qed.

Lemma written_run_compared w f1 f2 od A B :
  read_csv w f1 = inr A → read_csv w f2 = inr B →
  (columns_differ A B = true → lower (input w) = "y") →
  written (compare_csv_files w f1 f2 od) =
    (if decide (missing_in_file2 (compare A B) = ∅) then []
     else [(missing_path w od (file_name f1) (file_name f2),
            mkDataFrame (columns A) (set_order w (missing_in_file2 (compare A B))))]) ++
    (if decide (missing_in_file1 (compare A B) = ∅) then []
     else [(missing_path w od (file_name f2) (file_name f1),
            mkDataFrame (columns B) (set_order w (missing_in_file1 (compare A B))))]).
Proof.
  intros H1 H2 Hy. rewrite (run_compared w f1 f2 od A B H1 H2 Hy).
  rewrite !written_app, written_compare_and_write.
  destruct (columns_differ A B); reflexivity.
Qed.

Lemma missing_in_file2_nonempty A B :
  missing_in_file2 (compare A B) ≠ ∅ ↔ ∃ r, r ∈ rows A ∧ r ∉ rows B.
Proof.
  split.
  - intros Hne. apply set_choose_L in Hne as [r Hr].
    exists r. apply elem_of_missing_in_file2, Hr.
  - intros [r Hr] He. apply elem_of_missing_in_file2 in Hr.
    rewrite He in Hr. revert Hr. apply not_elem_of_empty.
Qed.

Lemma missing_in_file1_nonempty A B :
  missing_in_file1 (compare A B) ≠ ∅ ↔ ∃ r, r ∈ rows B ∧ r ∉ rows A.
Proof.
  split.
  - intros Hne. apply set_choose_L in Hne as [r Hr].
    exists r. apply elem_of_missing_in_file1, Hr.
  - intros [r Hr] He. apply elem_of_missing_in_file1 in Hr.
    rewrite He in Hr. revert Hr. apply not_elem_of_empty.
Qed.

(** ** Output files *)


(** C8. When either file cannot be read, the run prints the error with the
    exception that was raised and stops there: nothing is compared and no
    table is written. *)
Theorem read_error_aborts w f1 f2 od :
  (∃ e, read_csv w f1 = inl e) ∨ (∃ e, read_csv w f2 = inl e) →
  ∃ e, (read_csv w f1 = inl e ∨ read_csv w f2 = inl e) ∧
       compare_csv_files w f1 f2 od =
         [ Makedirs (output_directory w od); Print (Comparing f1 f2);
           Print (ErrorReading e) ] ∧
       written (compare_csv_files w f1 f2 od) = [].
Proof.
  intros Herr.
  assert (∃ e, (read_csv w f1 = inl e ∨ read_csv w f2 = inl e) ∧
               (read_csv w f1 = inl e ∨
                ∃ A, read_csv w f1 = inr A ∧ read_csv w f2 = inl e)) as (e & He & Hrun).
  { destruct (read_csv w f1) as [e1|A] eqn:E1.
    - exists e1. split; left; reflexivity.
    - destruct Herr as [[e He] | [e He]]; [discriminate|].
      exists e. split; [right; exact He | right; exists A; split; [reflexivity | exact He]]. }
  exists e. split; [exact He|].
  rewrite (run_read_error w f1 f2 od e Hrun). split; reflexivity.
Qed.

(** ** Exact text *)

(** C6. Fields are never rewritten: the key sets hold the rows of the
    tables as read, character for character, and every table handed to
    [to_csv] carries the header of its input table and, as rows, exactly the
    rows of that table that are absent from the other one. *)
Theorem exact_text_preservation w f1 f2 od A B :
  read_csv w f1 = inr A → read_csv w f2 = inr B →
  let c := compare A B in
  (∀ r, r ∈ df1_rows c ↔ r ∈ rows A) ∧
  (∀ r, r ∈ df2_rows c ↔ r ∈ rows B) ∧
  (∀ p df, (p, df) ∈ written (compare_csv_files w f1 f2 od) →
     (columns df = columns A ∧ ∀ r, r ∈ rows df ↔ r ∈ rows A ∧ r ∉ rows B) ∨
     (columns df = columns B ∧ ∀ r, r ∈ rows df ↔ r ∈ rows B ∧ r ∉ rows A)).
Proof.
  intros H1 H2 c. subst c. split_and!.
  - intros r. apply elem_of_df1_rows.
  - intros r. apply elem_of_df2_rows.
  - intros p df Hin.
    destruct (decide (columns_differ A B = true ∧ lower (input w) ≠ "y")) as [[Hd Hn]|Hgo].
    + rewrite (run_declined w f1 f2 od A B H1 H2 Hd Hn) in Hin.
      vm_compute in Hin. inversion Hin.
    + rewrite (written_run_compared w f1 f2 od A B H1 H2) in Hin.
      2:{ intros Hd. destruct (decide (lower (input w) = "y")); [assumption|].
          exfalso. apply Hgo. split; assumption. }
      apply elem_of_app in Hin as [Hin|Hin].
      * destruct (decide (missing_in_file2 (compare A B) = ∅)); [inversion Hin|].
        apply list_elem_of_singleton in Hin. injection Hin as -> ->. left.
        split; [reflexivity|]. intros r. cbn [rows].
        rewrite elem_of_to_list. apply elem_of_missing_in_file2.
      * destruct (decide (missing_in_file1 (compare A B) = ∅)); [inversion Hin|].
        apply list_elem_of_singleton in Hin. injection Hin as -> ->. right.
        split; [reflexivity|]. intros r. cbn [rows].
        rewrite elem_of_to_list. apply elem_of_missing_in_file1.
Qed.


Lemma read_error_aborts_witness :
  let w := world_of files_ab "" order_fwd in
  ∃ e, (read_csv w "old/left.csv" = inl e ∨ read_csv w "new/gone.csv" = inl e) ∧
       compare_csv_files w "old/left.csv" "new/gone.csv" None =
         [ Makedirs (output_directory w None);
           Print (Comparing "old/left.csv" "new/gone.csv");
           Print (ErrorReading e) ] ∧
       written (compare_csv_files w "old/left.csv" "new/gone.csv" None) = [].
Proof.
  apply (read_error_aborts (world_of files_ab "" order_fwd)
           "old/left.csv" "new/gone.csv" None).
  right. exists "No such file or directory". reflexivity.
Defined.

Lemma exact_text_preservation_witness :
  let w := world_of files_ids "" order_fwd in
  let c := compare ids_left ids_right in
  (∀ r, r ∈ df1_rows c ↔ r ∈ rows ids_left) ∧
  (∀ r, r ∈ df2_rows c ↔ r ∈ rows ids_right) ∧
  (∀ p df, (p, df) ∈ written (compare_csv_files w "old/left.csv" "new/right.csv" None) →
     (columns df = columns ids_left ∧
      ∀ r, r ∈ rows df ↔ r ∈ rows ids_left ∧ r ∉ rows ids_right) ∨
     (columns df = columns ids_right ∧
      ∀ r, r ∈ rows df ↔ r ∈ rows ids_right ∧ r ∉ rows ids_left)).
Proof.
  apply (exact_text_preservation (world_of files_ids "" order_fwd)
           "old/left.csv" "new/right.csv" None ids_left ids_right).
  - reflexivity.
  - reflexivity.
Defined.

(** The row ["007"] of the left table and the row ["7"] of the right table
    are different keys, and each is written out as it was read. *)
Example leading_zeros_kept :
  written (compare_csv_files (world_of files_ids "" order_fwd)
             "old/left.csv" "new/right.csv" (Some "out")) =
    [ ("out/left_missing_in_right_20240131_120000.csv",
       {| columns := ["id"]; rows := [["007"]] |});
      ("out/right_missing_in_left_20240131_120000.csv",
       {| columns := ["id"]; rows := [["7"]] |}) ].
Proof. vm_compute. reflexivity. Qed.

(** ** Row order of the output *)

(** C9, as stated, fails: list(set) fixes no order.  Two runs on the same
    two files, differing only in the order in which the interpreter
    enumerates a set, write the left-only rows in different orders. *)
Lemma row_order_not_determined :
  let w1 := world_of files_ab "" order_fwd in
  let w2 := world_of files_ab "" order_rev in
  same_inputs w1 w2 "old/left.csv" "new/right.csv" ∧
  written (compare_csv_files w1 "old/left.csv" "new/right.csv" (Some "out")) =
    [ ("out/left_missing_in_right_20240131_120000.csv",
       {| columns := ["a"; "b"]; rows := [["7"; "8"]; ["3"; "4"]] |});
      ("out/right_missing_in_left_20240131_120000.csv",
       {| columns := ["a"; "b"]; rows := [["5"; "6"]] |}) ] ∧
  written (compare_csv_files w2 "old/left.csv" "new/right.csv" (Some "out")) =
    [ ("out/left_missing_in_right_20240131_120000.csv",
       {| columns := ["a"; "b"]; rows := [["3"; "4"]; ["7"; "8"]] |});
      ("out/right_missing_in_left_20240131_120000.csv",
       {| columns := ["a"; "b"]; rows := [["5"; "6"]] |}) ] ∧
  written (compare_csv_files w1 "old/left.csv" "new/right.csv" (Some "out")) ≠
  written (compare_csv_files w2 "old/left.csv" "new/right.csv" (Some "out")).
Proof.
  split_and!.
  - repeat split.
  - vm_compute. reflexivity.
  - vm_compute. reflexivity.
  - vm_compute. discriminate.
Qed.

Lemma output_directory_same w1 w2 od :
  now w1 = now w2 → getcwd w1 = getcwd w2 →
  output_directory w1 od = output_directory w2 od.
Proof. intros Hn Hc. unfold output_directory. rewrite Hn, Hc. reflexivity. Qed.

Lemma missing_path_same w1 w2 od name other :
  now w1 = now w2 → getcwd w1 = getcwd w2 →
  missing_path w1 od name other = missing_path w2 od name other.
Proof.
  intros Hn Hc. unfold missing_path.
  rewrite (output_directory_same w1 w2 od Hn Hc), Hn. reflexivity.
Qed.

Lemma printed_app t1 t2 : printed (t1 ++ t2) = printed t1 ++ printed t2.
Proof. apply omap_app. Qed.

Lemma printed_compare_and_write w1 w2 A B n1 n2 p2 p1 :
  printed (compare_and_write w1 A B n1 n2 p2 p1) =
  printed (compare_and_write w2 A B n1 n2 p2 p1).
Proof.
  unfold compare_and_write, write_missing.
  repeat case_bool_decide; reflexivity.
Qed.

Lemma written_compare_and_write_same w1 w2 A B n1 n2 p2 p1 :
  Forall2 same_table (written (compare_and_write w1 A B n1 n2 p2 p1))
                     (written (compare_and_write w2 A B n1 n2 p2 p1)).
Proof.
  rewrite !written_compare_and_write.
  assert (∀ (s : gset RowKey) p cs,
            same_table (p, mkDataFrame cs (set_order w1 s))
                       (p, mkDataFrame cs (set_order w2 s))) as Hs.
  { intros s p cs. unfold same_table; simpl. split_and!; [reflexivity..|].
    rewrite !to_list_perm. reflexivity. }
  repeat case_decide; simpl; repeat constructor; apply Hs.
Qed.

Lemma written_compare_and_write_NoDup w A B n1 n2 p2 p1 :
  Forall (λ x, NoDup (rows x.2)) (written (compare_and_write w A B n1 n2 p2 p1)).
Proof.
  rewrite written_compare_and_write.
  repeat case_decide; simpl; repeat constructor; simpl; apply NoDup_to_list.
Qed.

Lemma compare_and_write_same_order w1 w2 A B n1 n2 p2 p1 :
  (∀ s, set_order w1 s = set_order w2 s) →
  compare_and_write w1 A B n1 n2 p2 p1 = compare_and_write w2 A B n1 n2 p2 p1.
Proof.
  intros Ho. unfold compare_and_write, write_missing. rewrite !Ho. reflexivity.
Qed.

(** C9, amended. Two runs that see the same inputs print the same lines and
    write the same files with the same headers and the same rows, each row
    once; the order of the rows within a file is the order in which the
    interpreter enumerates the set, so the files are identical when that
    order is. *)
Theorem output_determined_up_to_row_order w1 w2 f1 f2 od :
  same_inputs w1 w2 f1 f2 →
  let t1 := compare_csv_files w1 f1 f2 od in
  let t2 := compare_csv_files w2 f1 f2 od in
  printed t1 = printed t2 ∧
  Forall2 same_table (written t1) (written t2) ∧
  Forall (λ x, NoDup (rows x.2)) (written t1) ∧
  ((∀ s, set_order w1 s = set_order w2 s) → t1 = t2).
Proof.
  intros (Hn & Hc & Hr1 & Hr2 & Hi) t1 t2. subst t1 t2.
  unfold compare_csv_files.
  rewrite !(missing_path_same w1 w2 od _ _ Hn Hc).
  rewrite (output_directory_same w1 w2 od Hn Hc), Hr1, Hr2, Hi.
  destruct (read_csv w2 f1) as [e1|A].
  { split_and!; [reflexivity | constructor | constructor | reflexivity]. }
  destruct (read_csv w2 f2) as [e2|B].
  { split_and!; [reflexivity | constructor | constructor | reflexivity]. }
  destruct (columns_differ A B); [case_bool_decide|].
  - split_and!; [reflexivity | constructor | constructor | reflexivity].
  - rewrite !app_assoc, !printed_app, !written_app. split_and!.
    + f_equal. apply printed_compare_and_write.
    + apply written_compare_and_write_same.
    + apply written_compare_and_write_NoDup.
    + intros Ho. f_equal. apply compare_and_write_same_order, Ho.
  - rewrite !printed_app, !written_app. split_and!.
    + f_equal. apply printed_compare_and_write.
    + apply written_compare_and_write_same.
    + apply written_compare_and_write_NoDup.
    + intros Ho. f_equal. apply compare_and_write_same_order, Ho.
Qed.

Lemma output_determined_up_to_row_order_witness :
  let w1 := world_of files_ab "" order_fwd in
  let w2 := world_of files_ab "" order_rev in
  let t1 := compare_csv_files w1 "old/left.csv" "new/right.csv" None in
  let t2 := compare_csv_files w2 "old/left.csv" "new/right.csv" None in
  printed t1 = printed t2 ∧
  Forall2 same_table (written t1) (written t2) ∧
  Forall (λ x, NoDup (rows x.2)) (written t1) ∧
  ((∀ s, set_order w1 s = set_order w2 s) → t1 = t2).
Proof.
  apply (output_determined_up_to_row_order
           (world_of files_ab "" order_fwd) (world_of files_ab "" order_rev)
           "old/left.csv" "new/right.csv" None).
  unfold same_inputs. simpl. repeat split; reflexivity.
Defined.

(** ** The column check *)

Lemma columns_differ_spec A B :
  columns_differ A B = true ↔ ¬ ∀ x, x ∈ columns A ↔ x ∈ columns B.
Proof.
  unfold columns_differ. rewrite bool_decide_eq_true. split.
  - intros Hne Hall. apply Hne, set_eq. intros x.
    rewrite !elem_of_list_to_set. apply Hall.
  - intros Hne Heq. apply Hne. intros x.
    rewrite <- !(elem_of_list_to_set (C := gset string)), Heq. reflexivity.
Qed.






(** Scenario C of the specification: headers [a,b] and [a,c]. *)
Example warning_on_different_names :
  printed (compare_csv_files (world_of files_ac "n" order_fwd)
             "old/left.csv" "new/right.csv" None) =
    [ Comparing "old/left.csv" "new/right.csv"; ColumnsDontMatch;
      ColumnsIn "left" ["a"; "b"]; ColumnsIn "right" ["a"; "c"];
      ComparisonAborted ].
Proof. vm_compute. reflexivity. Qed.

(** * The rest of the function

    Properties of the parts of [compare_csv_files] around the set
    comparison: the prompt, the output paths, the files written. *)

(** ** The three ways a run can go *)

Lemma run_cases w f1 f2 od :
  (∃ e, compare_csv_files w f1 f2 od =
          [ Makedirs (output_directory w od); Print (Comparing f1 f2);
            Print (ErrorReading e) ]) ∨
  (∃ A B, read_csv w f1 = inr A ∧ read_csv w f2 = inr B ∧
          columns_differ A B = true ∧ lower (input w) ≠ "y" ∧
          compare_csv_files w f1 f2 od =
            [ Makedirs (output_directory w od); Print (Comparing f1 f2);
              Print ColumnsDontMatch;
              Print (ColumnsIn (file_name f1) (columns A));
              Print (ColumnsIn (file_name f2) (columns B));
              Prompt; Print ComparisonAborted ]) ∨
  (∃ A B, read_csv w f1 = inr A ∧ read_csv w f2 = inr B ∧
          (columns_differ A B = true → lower (input w) = "y")).
Proof.
  destruct (read_csv w f1) as [e|A] eqn:E1.
  { left. exists e. apply run_read_error. left. exact E1. }
  destruct (read_csv w f2) as [e|B] eqn:E2.
  { left. exists e. apply run_read_error. right. exists A. split; assumption. }
  destruct (decide (columns_differ A B = true ∧ lower (input w) ≠ "y")) as [[Hd Hn]|Hgo].
  - right; left. exists A, B. split_and!; try assumption; try reflexivity.
    apply run_declined; assumption.
  - right; right. exists A, B. split_and!; try reflexivity.
    intros Hd. destruct (decide (lower (input w) = "y")); [assumption|].
    exfalso. apply Hgo. split; assumption.
Qed.

(** Whatever is written is one of the two difference tables of a run that
    reached the comparison. *)
Lemma written_cases w f1 f2 od p df :
  (p, df) ∈ written (compare_csv_files w f1 f2 od) →
  ∃ A B, read_csv w f1 = inr A ∧ read_csv w f2 = inr B ∧
         (columns_differ A B = true → lower (input w) = "y") ∧
         ((p = missing_path w od (file_name f1) (file_name f2) ∧
           df = mkDataFrame (columns A) (set_order w (missing_in_file2 (compare A B))) ∧
           missing_in_file2 (compare A B) ≠ ∅) ∨
          (p = missing_path w od (file_name f2) (file_name f1) ∧
           df = mkDataFrame (columns B) (set_order w (missing_in_file1 (compare A B))) ∧
           missing_in_file1 (compare A B) ≠ ∅)).
Proof.
  intros Hin.
  destruct (run_cases w f1 f2 od) as [(e & Ht) | [(A & B & _ & _ & _ & _ & Ht) | (A & B & H1 & H2 & Hy)]].
  - rewrite Ht in Hin. vm_compute in Hin. inversion Hin.
  - rewrite Ht in Hin. vm_compute in Hin. inversion Hin.
  - exists A, B. split_and!; try assumption.
    rewrite (written_run_compared w f1 f2 od A B H1 H2 Hy) in Hin.
    apply elem_of_app in Hin as [Hin|Hin].
    + destruct (decide (missing_in_file2 (compare A B) = ∅)) as [|Hne]; [inversion Hin|].
      apply list_elem_of_singleton in Hin. injection Hin as -> ->.
      left. split_and!; [reflexivity | reflexivity | exact Hne].
    + destruct (decide (missing_in_file1 (compare A B) = ∅)) as [|Hne]; [inversion Hin|].
      apply list_elem_of_singleton in Hin. injection Hin as -> ->.
      right. split_and!; [reflexivity | reflexivity | exact Hne].
Qed.

Lemma results_in_compare_and_write w A B n1 n2 p2 p1 :
  Print ComparisonResults ∈ compare_and_write w A B n1 n2 p2 p1.
Proof. unfold compare_and_write. simpl. apply list_elem_of_here. Qed.

Lemma prompt_not_in_compare_and_write w A B n1 n2 p2 p1 :
  Prompt ∉ compare_and_write w A B n1 n2 p2 p1.
Proof.
  unfold compare_and_write, write_missing. intros Hin.
  repeat case_bool_decide; simpl in Hin;
    repeat (apply elem_of_cons in Hin as [Hin|Hin]; [discriminate Hin|]);
    inversion Hin.
Qed.

(** ** The prompt *)

Lemma lower_ascii_y c :
  lower_ascii c = "y"%char ↔ c = "y"%char ∨ c = "Y"%char.
Proof.
  destruct c as [[] [] [] [] [] [] [] []]; vm_compute;
    (split; [intros H; first [discriminate H | left; reflexivity | right; reflexivity]
            | intros [H|H]; first [discriminate H | reflexivity]]).
Qed.

Lemma lower_y s : lower s = "y" ↔ s = "y" ∨ s = "Y".
Proof.
  destruct s as [|c [|c' s']]; simpl.
  - split; [discriminate | intros [H|H]; discriminate H].
  - split.
    + intros H. injection H as H. apply lower_ascii_y in H as [->| ->]; auto.
    + intros [H|H]; injection H as ->; reflexivity.
  - split; [discriminate | intros [H|H]; discriminate H].
Qed.

(** X1. After the column warning the comparison goes on exactly when the
    line typed is [y] or [Y]; on any other answer, [yes] included, the run
    prints that it is aborted and writes nothing. *)
Theorem proceeds_iff_answer_is_y w f1 f2 od A B :
  read_csv w f1 = inr A → read_csv w f2 = inr B →
  columns_differ A B = true →
  let t := compare_csv_files w f1 f2 od in
  (Print ComparisonResults ∈ t ↔ input w = "y" ∨ input w = "Y") ∧
  (input w ≠ "y" → input w ≠ "Y" →
   Print ComparisonAborted ∈ t ∧ written t = [] ∧
   ∀ n, Print (IdenticalRows n) ∉ t).
Proof.
  intros H1 H2 Hd t. subst t. split.
  - rewrite <- lower_y. split.
    + intros Hin. destruct (decide (lower (input w) = "y")) as [|Hn]; [assumption|].
      exfalso. rewrite (run_declined w f1 f2 od A B H1 H2 Hd Hn) in Hin.
      repeat (apply elem_of_cons in Hin as [Hin|Hin]; [discriminate Hin|]).
      inversion Hin.
    + intros Hy. rewrite (run_compared w f1 f2 od A B H1 H2 (λ _, Hy)).
      rewrite !elem_of_app. right; right. apply results_in_compare_and_write.
  - intros Hy HY.
    assert (lower (input w) ≠ "y") as Hn by (rewrite lower_y; tauto).
    rewrite (run_declined w f1 f2 od A B H1 H2 Hd Hn). split_and!.
    + do 6 apply list_elem_of_further. apply list_elem_of_here.
    + reflexivity.
    + intros n Hin.
      repeat (apply elem_of_cons in Hin as [Hin|Hin]; [discriminate Hin|]).
      inversion Hin.
Qed.

Lemma proceeds_iff_answer_is_y_witness :
  let w := world_of files_ac "yes" order_fwd in
  let t := compare_csv_files w "old/left.csv" "new/right.csv" None in
  (Print ComparisonResults ∈ t ↔ input w = "y" ∨ input w = "Y") ∧
  (input w ≠ "y" → input w ≠ "Y" →
   Print ComparisonAborted ∈ t ∧ written t = [] ∧
   ∀ n, Print (IdenticalRows n) ∉ t).
Proof.
  apply (proceeds_iff_answer_is_y (world_of files_ac "yes" order_fwd)
           "old/left.csv" "new/right.csv" None left_ab right_ac);
    reflexivity.
Defined.

(** X2. The prompt is shown exactly when some column name is in one header
    and not in the other.  When the headers hold the same names the
    comparison is carried out without asking, and the run is the same
    whatever would have been typed. *)
Theorem prompt_only_on_column_mismatch w f1 f2 od A B :
  read_csv w f1 = inr A → read_csv w f2 = inr B →
  let t := compare_csv_files w f1 f2 od in
  (Prompt ∈ t ↔ ¬ ∀ x, x ∈ columns A ↔ x ∈ columns B) ∧
  ((∀ x, x ∈ columns A ↔ x ∈ columns B) →
   Print ComparisonResults ∈ t ∧
   ∀ answer, compare_csv_files (with_answer w answer) f1 f2 od = t).
Proof.
  intros H1 H2 t. subst t. split.
  - rewrite <- columns_differ_spec. unfold compare_csv_files. rewrite H1, H2.
    destruct (columns_differ A B).
    + split; [reflexivity|]. intros _. simpl.
      do 5 apply list_elem_of_further. apply list_elem_of_here.
    + split; [|discriminate]. intros Hin. exfalso. simpl in Hin.
      apply elem_of_cons in Hin as [Hin|Hin]; [discriminate Hin|].
      apply elem_of_cons in Hin as [Hin|Hin]; [discriminate Hin|].
      revert Hin. apply prompt_not_in_compare_and_write.
  - intros Hsame.
    assert (columns_differ A B = false) as Hd.
    { destruct (columns_differ A B) eqn:E; [|reflexivity].
      exfalso. apply columns_differ_spec in E. apply E, Hsame. }
    split.
    + rewrite (run_compared w f1 f2 od A B H1 H2) by (rewrite Hd; discriminate).
      rewrite !elem_of_app. right; right. apply results_in_compare_and_write.
    + intros answer. unfold compare_csv_files. cbn [read_csv with_answer].
      rewrite H1, H2, Hd. reflexivity.
Qed.

Lemma prompt_only_on_column_mismatch_witness :
  let w := world_of files_ba "n" order_fwd in
  let t := compare_csv_files w "old/left.csv" "new/right.csv" None in
  (Prompt ∈ t ↔ ¬ ∀ x, x ∈ columns left_ab ↔ x ∈ columns right_ba) ∧
  ((∀ x, x ∈ columns left_ab ↔ x ∈ columns right_ba) →
   Print ComparisonResults ∈ t ∧
   ∀ answer, compare_csv_files (with_answer w answer)
               "old/left.csv" "new/right.csv" None = t).
Proof.
  apply (prompt_only_on_column_mismatch (world_of files_ba "n" order_fwd)
           "old/left.csv" "new/right.csv" None left_ab right_ba);
    reflexivity.
Defined.

(** ** What is written *)

Lemma missing_in_file2_empty_iff A B :
  missing_in_file2 (compare A B) = ∅ ↔ ∀ r, r ∈ rows A → r ∈ rows B.
Proof.
  split.
  - intros He r Hr. destruct (decide (r ∈ rows B)) as [|Hn]; [assumption|].
    exfalso. apply (missing_in_file2_nonempty A B); [exists r; split; assumption | exact He].
  - intros Hall. apply set_eq. intros r.
    rewrite elem_of_missing_in_file2, elem_of_empty. split; [|tauto].
    intros [Hr Hn]. apply Hn, Hall, Hr.
Qed.

Lemma missing_in_file1_empty_iff A B :
  missing_in_file1 (compare A B) = ∅ ↔ ∀ r, r ∈ rows B → r ∈ rows A.
Proof.
  split.
  - intros He r Hr. destruct (decide (r ∈ rows A)) as [|Hn]; [assumption|].
    exfalso. apply (missing_in_file1_nonempty A B); [exists r; split; assumption | exact He].
  - intros Hall. apply set_eq. intros r.
    rewrite elem_of_missing_in_file1, elem_of_empty. split; [|tauto].
    intros [Hr Hn]. apply Hn, Hall, Hr.
Qed.

(** X3. A run that reaches the comparison writes no file at all exactly
    when the two tables hold the same rows as sets: tables that differ only
    in the order of their rows, in how often a row is repeated, or in their
    headers, give no output. *)
Theorem no_output_iff_same_row_sets w f1 f2 od A B :
  read_csv w f1 = inr A → read_csv w f2 = inr B →
  (columns_differ A B = true → lower (input w) = "y") →
  let t := compare_csv_files w f1 f2 od in
  (written t = [] ↔ ∀ r, r ∈ rows A ↔ r ∈ rows B) ∧
  (rows A ≡ₚ rows B → written t = []).
Proof.
  intros H1 H2 Hy t. subst t.
  assert (written (compare_csv_files w f1 f2 od) = [] ↔
          ∀ r, r ∈ rows A ↔ r ∈ rows B) as Hiff.
  { rewrite (written_run_compared w f1 f2 od A B H1 H2 Hy). split.
    - intros He r.
      destruct (decide (missing_in_file2 (compare A B) = ∅)) as [E2|]; [|discriminate He].
      destruct (decide (missing_in_file1 (compare A B) = ∅)) as [E1|]; [|discriminate He].
      split; [apply missing_in_file2_empty_iff, E2 | apply missing_in_file1_empty_iff, E1].
    - intros Hsame.
      rewrite decide_True by (apply missing_in_file2_empty_iff; intros r; apply Hsame).
      rewrite decide_True by (apply missing_in_file1_empty_iff; intros r; apply Hsame).
      reflexivity. }
  split; [exact Hiff|].
  intros Hp. apply Hiff. intros r. rewrite Hp. reflexivity.
Qed.

Lemma no_output_iff_same_row_sets_witness :
  let A := mkDataFrame ["a"; "b"] [["1"; "2"]; ["3"; "4"]; ["1"; "2"]] in
  let B := mkDataFrame ["a"; "b"] [["3"; "4"]; ["1"; "2"]] in
  let w := world_of [("old/left.csv", A); ("new/right.csv", B)] "" order_fwd in
  let t := compare_csv_files w "old/left.csv" "new/right.csv" None in
  (written t = [] ↔ ∀ r, r ∈ rows A ↔ r ∈ rows B) ∧
  (rows A ≡ₚ rows B → written t = []).
Proof.
  intros A B w.
  apply (no_output_iff_same_row_sets w "old/left.csv" "new/right.csv" None A B).
  - reflexivity.
  - reflexivity.
  - intros H. vm_compute in H. discriminate H.
Defined.

(** X4. The three sets and their counts depend only on which rows occur in
    each table: replacing a table by one with the same rows in another
    order, with other repetitions or under another header changes none of
    them. *)
Theorem compare_depends_on_row_sets_only (A A' B B' : DataFrame) :
  (∀ r, r ∈ rows A ↔ r ∈ rows A') →
  (∀ r, r ∈ rows B ↔ r ∈ rows B') →
  common_rows (compare A B) = common_rows (compare A' B') ∧
  missing_in_file2 (compare A B) = missing_in_file2 (compare A' B') ∧
  missing_in_file1 (compare A B) = missing_in_file1 (compare A' B') ∧
  identical_rows (compare A B) = identical_rows (compare A' B') ∧
  rows_missing_in_file2 (compare A B) = rows_missing_in_file2 (compare A' B') ∧
  rows_missing_in_file1 (compare A B) = rows_missing_in_file1 (compare A' B').
Proof.
  intros HA HB.
  assert (common_rows (compare A B) = common_rows (compare A' B')) as Ec.
  { apply set_eq. intros r. rewrite !elem_of_common_rows, HA, HB. reflexivity. }
  assert (missing_in_file2 (compare A B) = missing_in_file2 (compare A' B')) as E2.
  { apply set_eq. intros r. rewrite !elem_of_missing_in_file2, HA, HB. reflexivity. }
  assert (missing_in_file1 (compare A B) = missing_in_file1 (compare A' B')) as E1.
  { apply set_eq. intros r. rewrite !elem_of_missing_in_file1, HA, HB. reflexivity. }
  split_and!; try assumption.
  - change (size (common_rows (compare A B)) = size (common_rows (compare A' B'))).
    rewrite Ec. reflexivity.
  - change (size (missing_in_file2 (compare A B)) = size (missing_in_file2 (compare A' B'))).
    rewrite E2. reflexivity.
  - change (size (missing_in_file1 (compare A B)) = size (missing_in_file1 (compare A' B'))).
    rewrite E1. reflexivity.
Qed.

Lemma compare_depends_on_row_sets_only_witness :
  let A := mkDataFrame ["a"; "b"] [["1"; "2"]; ["3"; "4"]; ["1"; "2"]] in
  let A' := mkDataFrame ["x"; "y"] [["3"; "4"]; ["1"; "2"]] in
  let B := right_ab in
  common_rows (compare A B) = common_rows (compare A' B) ∧
  missing_in_file2 (compare A B) = missing_in_file2 (compare A' B) ∧
  missing_in_file1 (compare A B) = missing_in_file1 (compare A' B) ∧
  identical_rows (compare A B) = identical_rows (compare A' B) ∧
  rows_missing_in_file2 (compare A B) = rows_missing_in_file2 (compare A' B) ∧
  rows_missing_in_file1 (compare A B) = rows_missing_in_file1 (compare A' B).
Proof.
  intros A A' B.
  apply (compare_depends_on_row_sets_only A A' B B).
  - intros r. simpl. rewrite !elem_of_cons, !elem_of_nil. tauto.
  - intros r. reflexivity.
Defined.

(** X5. Well-formed input gives well-formed output: when every row of each
    table read has one field per column, so has every row of every table
    written. *)
Theorem written_tables_well_formed w f1 f2 od A B :
  read_csv w f1 = inr A → read_csv w f2 = inr B →
  well_formed A → well_formed B →
  ∀ p df, (p, df) ∈ written (compare_csv_files w f1 f2 od) → well_formed df.
Proof.
  intros H1 H2 HA HB p df Hin.
  apply written_cases in Hin as (A' & B' & H1' & H2' & _ & Hside).
  rewrite H1 in H1'. rewrite H2 in H2'. injection H1' as <-. injection H2' as <-.
  unfold well_formed in *. rewrite Forall_forall in HA, HB. apply Forall_forall.
  destruct Hside as [(_ & -> & _) | (_ & -> & _)]; cbn [rows columns]; intros r Hr;
    apply elem_of_to_list in Hr.
  - apply HA. apply elem_of_missing_in_file2 in Hr. tauto.
  - apply HB. apply elem_of_missing_in_file1 in Hr. tauto.
Qed.

Lemma written_tables_well_formed_witness :
  well_formed (mkDataFrame ["a"; "c"] [["5"; "6"]]).
Proof.
  apply (written_tables_well_formed (world_of files_ac "y" order_fwd)
           "old/left.csv" "new/right.csv" (Some "out") left_ab right_ac
           eq_refl eq_refl)
    with (p := "out/right_missing_in_left_20240131_120000.csv").
  - unfold well_formed. simpl. repeat constructor.
  - unfold well_formed. simpl. repeat constructor.
  - vm_compute. apply list_elem_of_further, list_elem_of_here.
Defined.

Lemma length_to_list (o : SetOrder) (s : gset RowKey) : length (o s) = size s.
Proof. rewrite (to_list_perm o s). reflexivity. Qed.

Lemma announced_in_write_missing (o : SetOrder) (s : gset RowKey) df name other path :
  s ≠ ∅ →
  Print (SavedTo name other path) ∈ write_missing o (size s) s df name other path.
Proof.
  intros Hne. unfold write_missing.
  rewrite bool_decide_eq_true_2 by (apply size_pos_iff; exact Hne).
  apply list_elem_of_further, list_elem_of_here.
Qed.

Lemma announced_left w A B n1 n2 p2 p1 :
  missing_in_file2 (compare A B) ≠ ∅ →
  Print (SavedTo n1 n2 p2) ∈ compare_and_write w A B n1 n2 p2 p1 ∧
  Print (RowsMissing n1 n2 (length (set_order w (missing_in_file2 (compare A B)))))
    ∈ compare_and_write w A B n1 n2 p2 p1.
Proof.
  intros Hne. rewrite length_to_list. unfold compare_and_write.
  change (rows_missing_in_file2 (compare A B)) with (size (missing_in_file2 (compare A B))).
  split.
  - apply elem_of_app. right. apply elem_of_app. left.
    apply announced_in_write_missing, Hne.
  - apply elem_of_app. left. do 4 apply list_elem_of_further. apply list_elem_of_here.
Qed.

Lemma announced_right w A B n1 n2 p2 p1 :
  missing_in_file1 (compare A B) ≠ ∅ →
  Print (SavedTo n2 n1 p1) ∈ compare_and_write w A B n1 n2 p2 p1 ∧
  Print (RowsMissing n2 n1 (length (set_order w (missing_in_file1 (compare A B)))))
    ∈ compare_and_write w A B n1 n2 p2 p1.
Proof.
  intros Hne. rewrite length_to_list. unfold compare_and_write.
  change (rows_missing_in_file1 (compare A B)) with (size (missing_in_file1 (compare A B))).
  split.
  - apply elem_of_app. right. apply elem_of_app. right.
    apply announced_in_write_missing, Hne.
  - apply elem_of_app. left. do 5 apply list_elem_of_further. apply list_elem_of_here.
Qed.

Lemma to_list_nonempty (o : SetOrder) (s : gset RowKey) : s ≠ ∅ → o s ≠ [].
Proof.
  intros Hne He. apply size_pos_iff in Hne.
  rewrite <- (length_to_list o), He in Hne. simpl in Hne. lia.
Qed.

(** X6. Every file written, in any run, has at least one data row and no
    row twice, and the run tells about it: it prints the path the file was
    saved to, and its "rows missing" line for that side gives exactly the
    number of rows of the file. *)
Theorem written_file_is_announced w f1 f2 od p df :
  let t := compare_csv_files w f1 f2 od in
  (p, df) ∈ written t →
  rows df ≠ [] ∧ NoDup (rows df) ∧
  ∃ name other,
    Print (SavedTo name other p) ∈ t ∧
    Print (RowsMissing name other (length (rows df))) ∈ t.
Proof.
  intros t Hin. subst t.
  apply written_cases in Hin as (A & B & H1 & H2 & Hy & Hside).
  rewrite (run_compared w f1 f2 od A B H1 H2 Hy).
  destruct Hside as [(-> & -> & Hne) | (-> & -> & Hne)]; cbn [rows].
  - split_and!; [apply to_list_nonempty, Hne | apply NoDup_to_list|].
    exists (file_name f1), (file_name f2).
    destruct (announced_left w A B (file_name f1) (file_name f2)
                (missing_path w od (file_name f1) (file_name f2))
                (missing_path w od (file_name f2) (file_name f1)) Hne) as [Hs Hc].
    split; rewrite !elem_of_app; right; right; assumption.
  - split_and!; [apply to_list_nonempty, Hne | apply NoDup_to_list|].
    exists (file_name f2), (file_name f1).
    destruct (announced_right w A B (file_name f1) (file_name f2)
                (missing_path w od (file_name f1) (file_name f2))
                (missing_path w od (file_name f2) (file_name f1)) Hne) as [Hs Hc].
    split; rewrite !elem_of_app; right; right; assumption.
Qed.

Lemma written_file_is_announced_witness :
  let w := world_of files_ab "" order_rev in
  let t := compare_csv_files w "old/left.csv" "new/right.csv" (Some "out") in
  let p := "out/left_missing_in_right_20240131_120000.csv" in
  let df := mkDataFrame ["a"; "b"] [["3"; "4"]; ["7"; "8"]] in
  rows df ≠ [] ∧ NoDup (rows df) ∧
  ∃ name other,
    Print (SavedTo name other p) ∈ t ∧
    Print (RowsMissing name other (length (rows df))) ∈ t.
Proof.
  apply (written_file_is_announced (world_of files_ab "" order_rev)
           "old/left.csv" "new/right.csv" (Some "out")
           "out/left_missing_in_right_20240131_120000.csv"
           (mkDataFrame ["a"; "b"] [["3"; "4"]; ["7"; "8"]])).
  vm_compute. apply list_elem_of_here.
Defined.

(** ** Swapping the two files *)



(** ** Names and paths *)

Lemma has_slash_basename s : has_slash (basename s) = false.
Proof.
  induction s as [|c r IH]; [reflexivity|]. cbn [basename].
  destruct (has_slash (String c r)) eqn:E; [exact IH | exact E].
Qed.

Lemma has_slash_before_dot s : has_slash s = false → has_slash (before_dot s) = false.
Proof.
  induction s as [|c r IH]; simpl; [reflexivity|].
  destruct (Ascii.eqb c "/") eqn:E; [discriminate|]. intros H.
  destruct (Ascii.eqb c "."); [reflexivity|]. simpl. rewrite E. apply IH, H.
Qed.

Lemma has_dot_before_dot s : has_dot (before_dot s) = false.
Proof.
  induction s as [|c r IH]; simpl; [reflexivity|].
  destruct (Ascii.eqb c ".") eqn:E; [reflexivity|]. simpl. rewrite E. exact IH.
Qed.

Lemma has_slash_file_name p : has_slash (file_name p) = false.
Proof. apply has_slash_before_dot, has_slash_basename. Qed.

Lemma has_slash_append a b : has_slash (a +:+ b) = has_slash a || has_slash b.
Proof.
  induction a as [|c a IH]; simpl; [reflexivity|].
  destruct (Ascii.eqb c "/"); [reflexivity | exact IH].
Qed.

Lemma basename_no_slash s : has_slash s = false → basename s = s.
Proof. intros H. destruct s as [|c r]; [reflexivity|]. cbn [basename]. rewrite H. reflexivity. Qed.

Lemma basename_after_directory d b :
  has_slash b = false → basename (d +:+ "/" +:+ b) = b.
Proof.
  intros Hb. induction d as [|c d IH].
  - simpl. apply basename_no_slash, Hb.
  - change (String c d +:+ "/" +:+ b) with (String c (d +:+ "/" +:+ b)).
    cbn [basename].
    replace (has_slash (String c (d +:+ "/" +:+ b))) with true; [exact IH|].
    symmetry. simpl. destruct (Ascii.eqb c "/"); [reflexivity|].
    rewrite has_slash_append. simpl. apply orb_true_r.
Qed.

Lemma before_dot_no_dot s : has_dot s = false → before_dot s = s.
Proof.
  induction s as [|c r IH]; simpl; [reflexivity|].
  destruct (Ascii.eqb c "."); [discriminate|]. intros H. rewrite IH by exact H. reflexivity.
Qed.

Lemma before_dot_stem s r : has_dot s = false → before_dot (s +:+ "." +:+ r) = s.
Proof.
  induction s as [|c s IH]; simpl; [reflexivity|].
  destruct (Ascii.eqb c "."); [discriminate|]. intros H. rewrite IH by exact H. reflexivity.
Qed.

(** X8. The name under which a file appears in the messages and in the
    output file names is the last path component cut at its first dot: it
    never holds a slash or a dot, and [dir/stem.rest], [stem.rest] and
    [dir/stem] all give [stem], so the directory and everything from the
    first dot on play no part in it. *)
Theorem file_name_is_stem :
  (∀ p, has_slash (file_name p) = false ∧ has_dot (file_name p) = false ∧
        file_name (file_name p) = file_name p) ∧
  (∀ dir stem rest,
     has_slash stem = false → has_dot stem = false → has_slash rest = false →
     file_name (dir +:+ "/" +:+ stem +:+ "." +:+ rest) = stem ∧
     file_name (stem +:+ "." +:+ rest) = stem ∧
     file_name (dir +:+ "/" +:+ stem) = stem ∧
     file_name stem = stem).
Proof.
  split.
  - intros p. split_and!.
    + apply has_slash_file_name.
    + apply has_dot_before_dot.
    + unfold file_name at 1.
      rewrite basename_no_slash by apply has_slash_file_name.
      apply before_dot_no_dot, has_dot_before_dot.
  - intros dir stem rest Hs Hd Hr.
    assert (has_slash (stem +:+ "." +:+ rest) = false) as Hsr.
    { rewrite has_slash_append, Hs. simpl. exact Hr. }
    unfold file_name. split_and!.
    + rewrite basename_after_directory by exact Hsr. apply before_dot_stem, Hd.
    + rewrite basename_no_slash by exact Hsr. apply before_dot_stem, Hd.
    + rewrite basename_after_directory by exact Hs. apply before_dot_no_dot, Hd.
    + rewrite basename_no_slash by exact Hs. apply before_dot_no_dot, Hd.
Qed.

Lemma file_name_is_stem_witness :
  file_name ("/srv/old" +:+ "/" +:+ "data" +:+ "." +:+ "2024.csv") = "data" ∧
  file_name ("data" +:+ "." +:+ "2024.csv") = "data" ∧
  file_name ("/srv/old" +:+ "/" +:+ "data") = "data" ∧
  file_name "data" = "data".
Proof.
  destruct file_name_is_stem as [_ H].
  apply (H "/srv/old" "data" "2024.csv"); reflexivity.
Defined.

Lemma path_join_relative a b :
  (∀ r, b ≠ String "/" r) →
  path_join a b =
    if ends_with_slash a then a +:+ b
    else match a with
         | EmptyString => b
         | _ => a +:+ "/" +:+ b
         end.
Proof.
  intros Hb. unfold path_join. destruct b as [|c b']; [reflexivity|].
  destruct c as [[] [] [] [] [] [] [] []]; try reflexivity.
  exfalso. apply (Hb b'). reflexivity.
Qed.

Lemma prefix_append a b : String.prefix a (a +:+ b) = true.
Proof.
  induction a as [|c a IH]; simpl.
  - destruct b; reflexivity.
  - destruct (ascii_dec c c) as [_|Hn]; [exact IH | exfalso; apply Hn; reflexivity].
Qed.

Lemma prefix_path_join a b :
  (∀ r, b ≠ String "/" r) → String.prefix a (path_join a b) = true.
Proof.
  intros Hb. rewrite (path_join_relative a b Hb).
  destruct (ends_with_slash a); [apply prefix_append|].
  destruct a as [|c a]; [destruct b; reflexivity | apply prefix_append].
Qed.

Lemma no_leading_slash n rest r :
  has_slash n = false → n +:+ String "_" rest ≠ String "/" r.
Proof.
  intros Hn. destruct n as [|c n]; simpl.
  - intros H. discriminate H.
  - intros H. injection H as Hc _. subst c. simpl in Hn. discriminate Hn.
Qed.

Lemma prefix_missing_path w od f other :
  String.prefix (output_directory w od) (missing_path w od (file_name f) other) = true.
Proof.
  unfold missing_path. apply prefix_path_join. intros r.
  apply (no_leading_slash (file_name f)), has_slash_file_name.
Qed.

(** X9. Every run starts by creating the output directory, and every file
    it writes has a path that begins with that directory, whatever the paths
    of the input files (absolute ones included). *)
Theorem outputs_in_output_directory w f1 f2 od :
  let t := compare_csv_files w f1 f2 od in
  head t = Some (Makedirs (output_directory w od)) ∧
  ∀ p df, (p, df) ∈ written t →
          String.prefix (output_directory w od) p = true.
Proof.
  intros t. subst t. split; [reflexivity|].
  intros p df Hin.
  apply written_cases in Hin as (A & B & _ & _ & _ & [(-> & _) | (-> & _)]);
    apply prefix_missing_path.
Qed.

(** X10. When the two input files have the same name (say [old/data.csv]
    and [new/data.csv]) both output paths are the same: a run in which each
    table has rows of its own writes the left-only table and then the
    right-only table to that one path. *)
Theorem same_name_outputs_share_path w f1 f2 od A B :
  read_csv w f1 = inr A → read_csv w f2 = inr B →
  (columns_differ A B = true → lower (input w) = "y") →
  file_name f1 = file_name f2 →
  let t := compare_csv_files w f1 f2 od in
  let c := compare A B in
  (∀ p p' df df', (p, df) ∈ written t → (p', df') ∈ written t → p = p') ∧
  (missing_in_file2 c ≠ ∅ → missing_in_file1 c ≠ ∅ →
   ∃ p, written t =
          [ (p, mkDataFrame (columns A) (set_order w (missing_in_file2 c)));
            (p, mkDataFrame (columns B) (set_order w (missing_in_file1 c))) ]).
Proof.
  intros H1 H2 Hy Hname t c. subst t c. split.
  - intros p p' df df' Hin Hin'.
    apply written_cases in Hin as (_ & _ & _ & _ & _ & [(-> & _) | (-> & _)]);
      apply written_cases in Hin' as (_ & _ & _ & _ & _ & [(-> & _) | (-> & _)]);
      rewrite Hname; reflexivity.
  - intros Hne2 Hne1.
    exists (missing_path w od (file_name f1) (file_name f2)).
    rewrite (written_run_compared w f1 f2 od A B H1 H2 Hy).
    rewrite decide_False by exact Hne2. rewrite decide_False by exact Hne1.
    rewrite Hname. reflexivity.
Qed.

Lemma same_name_outputs_share_path_witness :
  let w := world_of files_data "" order_fwd in
  let t := compare_csv_files w "old/data.csv" "new/data.csv" None in
  let c := compare left_ab right_ab in
  (∀ p p' df df', (p, df) ∈ written t → (p', df') ∈ written t → p = p') ∧
  (missing_in_file2 c ≠ ∅ → missing_in_file1 c ≠ ∅ →
   ∃ p, written t =
          [ (p, mkDataFrame (columns left_ab) (set_order w (missing_in_file2 c)));
            (p, mkDataFrame (columns right_ab) (set_order w (missing_in_file1 c))) ]).
Proof.
  apply (same_name_outputs_share_path (world_of files_data "" order_fwd)
           "old/data.csv" "new/data.csv" None left_ab right_ab).
  - reflexivity.
  - reflexivity.
  - intros H. vm_compute in H. discriminate H.
  - reflexivity.
Defined.

Lemma outputs_in_output_directory_witness :
  let w := world_of files_abs "" order_fwd in
  String.prefix (output_directory w (Some "out"))
    "out/left_missing_in_right_20240131_120000.csv" = true.
Proof.
  destruct (outputs_in_output_directory (world_of files_abs "" order_fwd)
              "/srv/old/left.csv" "/srv/new/right.csv" (Some "out")) as [_ H].
  apply (H "out/left_missing_in_right_20240131_120000.csv"
           (mkDataFrame ["a"; "b"] [["7"; "8"]; ["3"; "4"]])).
  vm_compute. apply list_elem_of_here.
Defined.

Lemma append_assoc (a b c : string) : (a +:+ b) +:+ c = a +:+ b +:+ c.
Proof.
  induction a as [|x a IH]; [reflexivity|].
  change (String x ((a +:+ b) +:+ c) = String x (a +:+ b +:+ c)).
  rewrite IH. reflexivity.
Qed.

Lemma length_append (a b : string) :
  String.length (a +:+ b) = String.length a + String.length b.
Proof.
  induction a as [|x a IH]; [reflexivity|].
  change (S (String.length (a +:+ b)) = S (String.length a + String.length b)).
  rewrite IH. reflexivity.
Qed.

Lemma substring_nonempty n m s :
  n < String.length s → substring n (S m) s ≠ "".
Proof.
  revert n. induction s as [|c s IH]; intros n Hn; simpl in Hn; [lia|].
  destruct n as [|n]; simpl; [discriminate|]. apply IH. lia.
Qed.

Lemma has_slash_substring n m s :
  has_slash s = false → has_slash (substring n m s) = false.
Proof.
  revert n m. induction s as [|c s IH]; intros n m Hs.
  - destruct n, m; reflexivity.
  - simpl in Hs. destruct (Ascii.eqb c "/") eqn:E; [discriminate|].
    destruct n as [|n]; [destruct m as [|m]|]; simpl; [reflexivity | | apply IH, Hs].
    rewrite E. apply IH, Hs.
Qed.

Lemma ends_with_slash_no_slash s : has_slash s = false → ends_with_slash s = false.
Proof.
  induction s as [|c s IH]; simpl; [reflexivity|].
  destruct (Ascii.eqb c "/"); [discriminate|]. intros Hs.
  destruct s; [reflexivity | apply IH, Hs].
Qed.

Lemma ends_with_slash_append a b :
  b ≠ "" → ends_with_slash (a +:+ b) = ends_with_slash b.
Proof.
  intros Hb. induction a as [|c a IH]; [reflexivity|].
  change (String c a +:+ b) with (String c (a +:+ b)).
  destruct (a +:+ b) as [|x r] eqn:E.
  - destruct a; simpl in E; [contradiction | discriminate E].
  - exact IH.
Qed.

(** [os.path.join] of a directory, given without a trailing slash, and a
    plain component. *)
Lemma path_join_plain a b :
  a ≠ "" → ends_with_slash a = false → b ≠ "" → has_slash b = false →
  path_join a b = a +:+ "/" +:+ b ∧
  path_join a b ≠ "" ∧
  ends_with_slash (path_join a b) = false.
Proof.
  intros Ha Hea Hb Hsb.
  assert (path_join a b = a +:+ "/" +:+ b) as E.
  { rewrite path_join_relative.
    - rewrite Hea. destruct a; [contradiction | reflexivity].
    - intros r ->. simpl in Hsb. discriminate Hsb. }
  rewrite E. split_and!; [reflexivity| |].
  - destruct a; [contradiction | discriminate].
  - rewrite ends_with_slash_append by discriminate.
    destruct b as [|c b]; [contradiction|].
    apply (ends_with_slash_no_slash (String c b)), Hsb.
Qed.

(** X11. Without an output directory argument the files do not go to the
    working directory itself but to a dated folder below it: for a clock
    string of at least eight characters without a slash (the format gives
    [YYYYMMDD_HHMMSS]) and a working directory that is not empty and does not
    end in a slash, the directory created is [cwd/YYYY/MM/DD].  A directory
    given as argument is used as it is. *)
Theorem default_output_directory w :
  8 ≤ String.length (now w) → has_slash (now w) = false →
  getcwd w ≠ "" → ends_with_slash (getcwd w) = false →
  output_directory w None =
    getcwd w +:+ "/" +:+ substring 0 4 (now w) +:+ "/" +:+
    substring 4 2 (now w) +:+ "/" +:+ substring 6 2 (now w) ∧
  output_directory w None ≠ getcwd w ∧
  ∀ d, output_directory w (Some d) = d.
Proof.
  intros Hlen Hs Hc Hec.
  assert (output_directory w None =
            getcwd w +:+ "/" +:+ substring 0 4 (now w) +:+ "/" +:+
            substring 4 2 (now w) +:+ "/" +:+ substring 6 2 (now w)) as E.
  { unfold output_directory.
    destruct (path_join_plain (getcwd w) (substring 0 4 (now w)) Hc Hec)
      as (E1 & N1 & S1);
      [apply substring_nonempty; lia | apply has_slash_substring, Hs|].
    destruct (path_join_plain _ (substring 4 2 (now w)) N1 S1) as (E2 & N2 & S2);
      [apply substring_nonempty; lia | apply has_slash_substring, Hs|].
    destruct (path_join_plain _ (substring 6 2 (now w)) N2 S2) as (E3 & _ & _);
      [apply substring_nonempty; lia | apply has_slash_substring, Hs|].
    rewrite E3, E2, E1. rewrite !append_assoc. reflexivity. }
  split_and!; [exact E | | reflexivity].
  rewrite E. intros Heq.
  apply (f_equal String.length) in Heq.
  rewrite !length_append in Heq. simpl in Heq. lia.
Qed.

Lemma default_output_directory_witness :
  let w := world_of files_ab "" order_fwd in
  output_directory w None =
    getcwd w +:+ "/" +:+ substring 0 4 (now w) +:+ "/" +:+
    substring 4 2 (now w) +:+ "/" +:+ substring 6 2 (now w) ∧
  output_directory w None ≠ getcwd w ∧
  ∀ d, output_directory w (Some d) = d.
Proof.
  apply (default_output_directory (world_of files_ab "" order_fwd)).
  - simpl. lia.
  - reflexivity.
  - discriminate.
  - reflexivity.
Defined.

(** ** A table without rows *)

(** X12. When the left table has no data row, nothing is common and nothing
    is missing from the right file; the only file a run can write is the
    right-only one, and it holds each distinct row of the right table once
    under the right header; it is written unless the right table has no row
    either.  The same holds with the two sides exchanged. *)
Theorem one_table_without_rows w f1 f2 od A B :
  read_csv w f1 = inr A → read_csv w f2 = inr B →
  (columns_differ A B = true → lower (input w) = "y") →
  let t := compare_csv_files w f1 f2 od in
  let c := compare A B in
  (rows A = [] →
   identical_rows c = 0 ∧ rows_missing_in_file2 c = 0 ∧
   rows_missing_in_file1 c = length (distinct_rows B) ∧
   (written t = [] ↔ rows B = []) ∧
   ∀ p df, (p, df) ∈ written t →
           columns df = columns B ∧ rows df ≡ₚ distinct_rows B) ∧
  (rows B = [] →
   identical_rows c = 0 ∧ rows_missing_in_file1 c = 0 ∧
   rows_missing_in_file2 c = length (distinct_rows A) ∧
   (written t = [] ↔ rows A = []) ∧
   ∀ p df, (p, df) ∈ written t →
           columns df = columns A ∧ rows df ≡ₚ distinct_rows A).
Proof.
  intros H1 H2 Hy t c. subst t c.
  pose proof (identical_plus_missing_in_file2 A B) as E2.
  pose proof (identical_plus_missing_in_file1 A B) as E1.
  rewrite (written_run_compared w f1 f2 od A B H1 H2 Hy).
  split.
  - intros HA.
    assert (identical_rows (compare A B) = 0) as Hi.
    { change (size (common_rows (compare A B)) = 0).
      rewrite common_rows_no_left_rows by exact HA. apply size_empty. }
    assert (missing_in_file2 (compare A B) = ∅) as Hm.
    { apply missing_in_file2_empty_iff. intros r Hr. rewrite HA in Hr. inversion Hr. }
    assert (length (distinct_rows A) = 0) as HdA by (unfold distinct_rows; rewrite HA; reflexivity).
    rewrite decide_True by exact Hm. split_and!; [exact Hi | lia | lia | |].
    + rewrite app_nil_l.
      destruct (decide (missing_in_file1 (compare A B) = ∅)) as [He|Hne].
      * split; [|intros _; reflexivity]. intros _.
        apply elem_of_nil_inv. intros r Hr.
        rewrite missing_in_file1_empty_iff, HA in He. apply He in Hr. inversion Hr.
      * split; [discriminate|]. intros HB. exfalso. apply Hne.
        apply missing_in_file1_empty_iff. intros r Hr. rewrite HB in Hr. inversion Hr.
    + intros p df Hin. rewrite app_nil_l in Hin.
      destruct (decide (missing_in_file1 (compare A B) = ∅)); [inversion Hin|].
      apply list_elem_of_singleton in Hin. injection Hin as -> ->. cbn [columns rows].
      split; [reflexivity|]. apply NoDup_Permutation.
      * apply NoDup_to_list.
      * apply NoDup_remove_dups.
      * intros r. unfold distinct_rows.
        rewrite elem_of_to_list, elem_of_remove_dups.
        change (r ∈ missing_in_file1 (compare A B) ↔ r ∈ rows B).
        rewrite elem_of_missing_in_file1, HA, elem_of_nil. tauto.
  - intros HB.
    assert (identical_rows (compare A B) = 0) as Hi.
    { change (size (common_rows (compare A B)) = 0).
      rewrite common_rows_no_right_rows by exact HB. apply size_empty. }
    assert (missing_in_file1 (compare A B) = ∅) as Hm.
    { apply missing_in_file1_empty_iff. intros r Hr. rewrite HB in Hr. inversion Hr. }
    assert (length (distinct_rows B) = 0) as HdB by (unfold distinct_rows; rewrite HB; reflexivity).
    rewrite (decide_True (P := missing_in_file1 (compare A B) = ∅)) by exact Hm.
    rewrite app_nil_r. split_and!; [exact Hi | lia | lia | |].
    + destruct (decide (missing_in_file2 (compare A B) = ∅)) as [He|Hne].
      * split; [|intros _; reflexivity]. intros _.
        apply elem_of_nil_inv. intros r Hr.
        rewrite missing_in_file2_empty_iff, HB in He. apply He in Hr. inversion Hr.
      * split; [discriminate|]. intros HA. exfalso. apply Hne.
        apply missing_in_file2_empty_iff. intros r Hr. rewrite HA in Hr. inversion Hr.
    + intros p df Hin.
      destruct (decide (missing_in_file2 (compare A B) = ∅)); [inversion Hin|].
      apply list_elem_of_singleton in Hin. injection Hin as -> ->. cbn [columns rows].
      split; [reflexivity|]. apply NoDup_Permutation.
      * apply NoDup_to_list.
      * apply NoDup_remove_dups.
      * intros r. unfold distinct_rows.
        rewrite elem_of_to_list, elem_of_remove_dups.
        change (r ∈ missing_in_file2 (compare A B) ↔ r ∈ rows A).
        rewrite elem_of_missing_in_file2, HB, elem_of_nil. tauto.
Qed.

Lemma one_table_without_rows_witness :
  let A := mkDataFrame ["a"; "b"] [] in
  let w := world_of [("old/left.csv", A); ("new/right.csv", right_ab)] "" order_fwd in
  let t := compare_csv_files w "old/left.csv" "new/right.csv" None in
  let c := compare A right_ab in
  identical_rows c = 0 ∧ rows_missing_in_file2 c = 0 ∧
  rows_missing_in_file1 c = length (distinct_rows right_ab) ∧
  (written t = [] ↔ rows right_ab = []) ∧
  ∀ p df, (p, df) ∈ written t →
          columns df = columns right_ab ∧ rows df ≡ₚ distinct_rows right_ab.
Proof.
  intros A w.
  destruct (one_table_without_rows w "old/left.csv" "new/right.csv" None A right_ab)
    as [H _].
  - reflexivity.
  - reflexivity.
  - intros Hd. vm_compute in Hd. discriminate Hd.
  - apply H. reflexivity.
Defined.

(** ** The three counts together *)

(** X13. The three counts printed add up to the number of distinct rows
    that occur in the two tables taken together; rows repeated within a
    table or present in both are counted once. *)
Theorem counts_add_up (A B : DataFrame) :
  let c := compare A B in
  identical_rows c + rows_missing_in_file2 c + rows_missing_in_file1 c
  = length (remove_dups (rows A ++ rows B)).
Proof.
  intros c. subst c.
  rewrite identical_plus_missing_in_file2, <- (size_df1_rows A B).
  change (rows_missing_in_file1 (compare A B))
    with (size (df2_rows (compare A B) ∖ df1_rows (compare A B))).
  rewrite <- size_union_alt.
  apply size_as_distinct. intros r.
  rewrite elem_of_union, elem_of_df1_rows, elem_of_df2_rows, elem_of_app.
  reflexivity.
Qed.

End CsvComparison.
